(** * zfit: parameters, wrapped distributions, kernel density estimate and
    the FFT convolution's configuration, as a shallow embedding.

  Python objects become records, attribute assignment becomes explicit
  state passing, and a raised exception becomes the [Raise] case of
  [result].  Float tensors are lists of binary64 floats. *)

From Stdlib Require Import String Ascii List Bool Arith ZArith Lia Floats Uint63.
From Stdlib Require Import DecimalString DecimalNat.
Import ListNotations.

#[local] Set Warnings "-inexact-float,-register-all".

Local Open Scope string_scope.
Local Open Scope list_scope.

(** ** Python exceptions and the error monad *)

Module Py.

(** The exception classes raised by the modelled code.
    [InvalidArgumentError] is what a failing [tf.debugging] assertion
    raises; [ConfigurationError] is raised only by the convolution's
    configuration, whose code is modelled from the specification. *)
Inductive exn_class : Type :=
| RuntimeError
| AttributeError
| TypeError
| ValueError
| OverdefinedError
| InvalidArgumentError
| ConfigurationError.

Definition class_name (c : exn_class) : string :=
  match c with
  | RuntimeError => "RuntimeError"
  | AttributeError => "AttributeError"
  | TypeError => "TypeError"
  | ValueError => "ValueError"
  | OverdefinedError => "OverdefinedError"
  | InvalidArgumentError => "InvalidArgumentError"
  | ConfigurationError => "ConfigurationError"
  end.

Record exn : Type := Exn { exn_cls : exn_class; exn_msg : string }.

Inductive result (A : Type) : Type :=
| Return (a : A)
| Raise (e : exn).

Arguments Return {A} a.
Arguments Raise {A} e.

Definition bind {A B : Type} (m : result A) (k : A -> result B) : result B :=
  match m with
  | Return a => k a
  | Raise e => Raise e
  end.

(** [raises m name]: [m] raises an exception whose class is called [name]. *)
Definition raises {A : Type} (m : result A) (name : string) : Prop :=
  exists e, m = Raise e /\ class_name (exn_cls e) = name.

Definition returns {A : Type} (m : result A) : Prop :=
  exists a, m = Return a.

End Py.

Import Py.

Notation "x <- m ;; k" := (bind m (fun x => k))
(at level 61, m at next level, right associativity).

(** ** zfit.core.parameter *)

Module parameter.

(** The Python values a caller can hand to a property setter. *)
Inductive pyval : Type :=
| PyNone
| PyBool (b : bool)
| PyInt (z : Z)
| PyFloat (f : float)
| PyStr (s : string).

(** [isinstance(value, bool)] *)
Definition isinstance_bool (v : pyval) : bool :=
  match v with
  | PyBool _ => true
  | _ => false
  end.

(** The attributes of a [BaseParameter] the modelled methods touch:
    [name] is the name handed to the constructor, from which TensorFlow
    derives the variable's own name, [trainable] belongs to the
    TensorFlow variable underneath, [_floating] is the flag the property
    guards.  [_floating] is [None] until the setter has stored a value. *)
Record BaseParameter : Type := mkBaseParameter {
  name : string;
  initial_value : float;
  trainable : bool;
  _floating : option bool
}.

Definition set__floating (p : BaseParameter) (b : bool) : BaseParameter :=
  mkBaseParameter (name p) (initial_value p) (trainable p) (Some b).

(** [BaseParameter.floating] (getter).  Reading an attribute that was
    never assigned is Python's [AttributeError]. *)
Definition floating (p : BaseParameter) : result bool :=
  match _floating p with
  | Some fl =>
      if fl && negb (trainable p)
      then Raise (Exn RuntimeError
                      "Floating is set to true but tf Variable is not trainable.")
      else Return fl
  | None => Raise (Exn AttributeError "_floating")
  end.

(** [BaseParameter.floating] (setter): the outcome of the assignment and
    the object afterwards. *)
Definition floating_setter (value : pyval) (p : BaseParameter)
  : result unit * BaseParameter :=
  match value with
  | PyBool b => (Return tt, set__floating p b)
  | _ => (Raise (Exn TypeError "floating has to be a boolean."), p)
  end.

(** [BaseParameter.__init__]: the TensorFlow variable is created first
    ([trainable] is one of its keyword arguments, true when not given),
    then the flag goes through the setter. *)
Definition BaseParameter_init (nm : string) (iv : float) (fl : pyval)
    (trainable_kw : option bool) : result BaseParameter :=
  let self :=
    mkBaseParameter nm iv
      (match trainable_kw with Some t => t | None => true end) None in
  let '(r, self) := floating_setter fl self in
  _ <- r ;; Return self.

(** An independent parameter (class [Parameter]; the word is reserved
    in Rocq, hence [Param]): the base object and the attributes its
    constructor adds.  [_step_size] is [None] while no step was set. *)
Record Param : Type := mkParam {
  base : BaseParameter;
  init_value : float;
  _step_size : option float;
  lower_limit : float;
  upper_limit : float
}.

(** A number handed to a constructor: a Python number, or a tensor of the
    library's float type. *)
Inductive numeric : Type :=
| PyNumber (x : float)
| FloatTensor (t : float).

(** The number a variable of the library's float type is initialised
    with. *)
Definition numeric_value (v : numeric) : float :=
  match v with
  | PyNumber x => x
  | FloatTensor t => t
  end.

(** What [convert_to_parameter] is given here: a [tf.Variable] (a
    parameter), a [tf.Tensor] of the library's float type, a Python
    [complex], or another Python number. *)
Inductive param_input : Type :=
| AVariable (p : Param)
| ATensor (t : float)
| AComplex (re im : float)
| ANumber (x : float).

(** The value handed to the [parameters] setter: a dict from names to
    parameters, in insertion order, or anything else. *)
Inductive params_input : Type :=
| PyDict (d : list (string * Param))
| NotADict (v : pyval).

(** A [BaseComposedParameter] whose variable holds a value of type [V]:
    the attributes of the base class and [_parameters], [None] until the
    setter has stored a dict. *)
Record BaseComposedParameter (V : Type) : Type := mkComposed {
  composed_name : string;
  composed_initial_value : V;
  composed_trainable : bool;
  composed_floating : option bool;
  _parameters : option (list (string * Param))
}.

Arguments mkComposed {V}.
Arguments composed_name {V} b.
Arguments composed_initial_value {V} b.
Arguments composed_trainable {V} b.
Arguments composed_floating {V} b.
Arguments _parameters {V} b.

(** [BaseComposedParameter.parameters] (setter) *)
Definition parameters_setter {V : Type} (value : params_input)
    (c : BaseComposedParameter V) : result unit * BaseComposedParameter V :=
  match value with
  | PyDict d =>
      (Return tt,
       mkComposed (composed_name c) (composed_initial_value c)
                  (composed_trainable c) (composed_floating c) (Some d))
  | NotADict _ => (Raise (Exn TypeError "Parameters has to be a dict"), c)
  end.

(** [BaseComposedParameter.__init__]: the base constructor (with its
    [floating] check; the flag is true when not given) and then the
    [parameters] setter. *)
Definition BaseComposedParameter_init {V : Type} (params : params_input)
    (initial_value : V) (nm : string) (floating_kw : option pyval)
    (trainable_kw : option bool) : result (BaseComposedParameter V) :=
  let fl := match floating_kw with Some v => v | None => PyBool true end in
  let trainable := match trainable_kw with Some t => t | None => true end in
  match fl with
  | PyBool b =>
      let self := mkComposed nm initial_value trainable (Some b) None in
      let '(r, self) := parameters_setter params self in
      _ <- r ;; Return self
  | _ => Raise (Exn TypeError "floating has to be a boolean.")
  end.

(** The built-in [filter] called with a keyword argument: it takes
    none. *)
Definition filter_keyword {A : Type} (f : A -> bool) (iterable : list A)
  : result (list A) :=
  Raise (Exn TypeError "filter() takes no keyword arguments").

(** [ComposedParameter.__init__]; [gradients] stands for
    [tf.gradients(tensor, tf.get_collection("zfit_independent"))], one
    entry per registered parameter, [None] where there is no gradient. *)
Definition ComposedParameter_init
    (gradients : float -> result (list (option Param)))
    (nm : string) (tensor : float) : result (BaseComposedParameter float) :=
  dependent_vars <- gradients tensor ;;
  params <- filter_keyword
              (fun g : option Param => match g with Some _ => true | None => false end)
              dependent_vars ;;
  let params :=
    flat_map (fun g : option Param =>
                match g with
                | Some p => [(name (base p), p)]
                | None => []
                end) params in
  BaseComposedParameter_init (PyDict params) tensor nm None None.

Section Graph.

(** [tf.cast(x, dtype=ztypes.float)] on a Python number and [ztf.to_real]
    are TensorFlow's and the library's own casts; neither is part of the
    modelled code. *)
Variable cast_number : float -> float.
Variable to_real : float -> float.

(** The collections of the TensorFlow graph and [tf.add_to_collection],
    which receives the object as it is when it is added. *)
Variable collections : Type.
Variable add_to_collection : string -> BaseParameter -> collections -> collections.

(** [tf.cast(x, dtype=ztypes.float)]: a tensor that has the type already
    is left as it is. *)
Definition tf_cast (v : numeric) : float :=
  match v with
  | PyNumber x => cast_number x
  | FloatTensor t => t
  end.

(** [Parameter.__init__], up to the limits; the outcome and the graph's
    collections afterwards.  The variable is added to the collection
    before the flag goes through its setter. *)
Definition Parameter_init (nm : string) (iv : numeric)
    (lower upper : option numeric) (step : option float) (fl : pyval)
    (g : collections) : result Param * collections :=
  match BaseParameter_init nm (numeric_value iv) (PyBool true) None with
  | Raise e => (Raise e, g)
  | Return self =>
      let g := add_to_collection "zfit_independent" self g in
      let init_value := tf_cast iv in
      let '(r, self) := floating_setter fl self in
      match r with
      | Raise e => (Raise e, g)
      | Return _ =>
          let lower :=
            match lower with Some l => l | None => PyNumber (- infinity)%float end in
          let upper :=
            match upper with Some u => u | None => PyNumber infinity end in
          (Return (mkParam self init_value step (tf_cast lower) (tf_cast upper)), g)
      end
  end.

(** [Parameter.step_size] (getter); [==] on floats is the IEEE
    comparison, which is false whenever one side is NaN. *)
Definition step_size (p : Param) : result float :=
  step <-
    match _step_size p with
    | Some s => Return s
    | None =>
        let step_size := 0.001%float in
        if PrimFloat.eqb step_size nan then
          if PrimFloat.eqb (lower_limit p) (- infinity)%float
             || PrimFloat.eqb (upper_limit p) infinity
          then Return 0.0001%float
          else Raise (Exn ValueError "Could not set step size. Is NaN.")
        else Return step_size
    end ;;
  Return (to_real step).

(** [Parameter.step_size] (setter) *)
Definition step_size_setter (value : option float) (p : Param) : Param :=
  mkParam (base p) (init_value p) value (lower_limit p) (upper_limit p).

(** [Parameter._get_dependents] *)
Definition _get_dependents (p : Param) (only_floating : bool) : list Param := [p].

Definition set_base (p : Param) (b : BaseParameter) : Param :=
  mkParam b (init_value p) (_step_size p) (lower_limit p) (upper_limit p).

(** The last three lines of [convert_to_parameter]: a parameter made
    with the name FIXED_autoparam, whose flag is then set to false. *)
Definition fixed_autoparam (value : numeric) (g : collections)
  : result Param * collections :=
  let '(r, g) := Parameter_init "FIXED_autoparam" value None None None (PyBool true) g in
  match r with
  | Raise e => (Raise e, g)
  | Return p =>
      let '(r, b) := floating_setter (PyBool false) (base p) in
      (_ <- r ;; Return (set_base p b), g)
  end.

(** [convert_to_parameter]; [ztf.to_real] gives a tensor. *)
Definition convert_to_parameter (value : param_input) (g : collections)
  : result Param * collections :=
  match value with
  | AVariable p => (Return p, g)
  | ATensor t => fixed_autoparam (FloatTensor t) g
  | AComplex re im =>
      (Raise (Exn ValueError "Complex parameters not yet implemented"), g)
  | ANumber x => fixed_autoparam (FloatTensor (to_real x)) g
  end.

(** [ComplexParameter.__init__]; the complex initial value is its real
    and imaginary part, which [tf.real] and [tf.imag] give as tensors. *)
Definition ComplexParameter_init (nm : string) (initial_value : float * float)
    (fl : pyval) (g : collections)
  : result (BaseComposedParameter (float * float)) * collections :=
  let real_value := FloatTensor (fst initial_value) in
  let '(r, g) := Parameter_init (nm ++ "_real") real_value None None None fl g in
  match r with
  | Raise e => (Raise e, g)
  | Return real_part =>
      let imag_value := FloatTensor (snd initial_value) in
      let '(r, g) := Parameter_init (nm ++ "_imag") imag_value None None None fl g in
      match r with
      | Raise e => (Raise e, g)
      | Return imag_part =>
          let params := [("real", real_part); ("imag", imag_part)] in
          (BaseComposedParameter_init (PyDict params) initial_value nm None None, g)
      end
  end.

End Graph.

Arguments Parameter_init cast_number {collections} add_to_collection.
Arguments fixed_autoparam cast_number {collections} add_to_collection.
Arguments convert_to_parameter cast_number to_real {collections} add_to_collection.
Arguments ComplexParameter_init cast_number {collections} add_to_collection.

End parameter.

(** ** zfit.models.dist_tfp *)

Module dist_tfp.

(** A rank-2 float tensor: its shape (rows, columns) and its rows.  The
    shape is kept beside the rows because a tensor without rows still has
    a column count. *)
Record Tensor : Type := mkTensor {
  t_shape : nat * nat;
  t_rows : list (list float)
}.

(** An elementwise operation keeps the shape. *)
Definition map_tensor (f : float -> float) (t : Tensor) : Tensor :=
  mkTensor (t_shape t) (map (map f) (t_rows t)).

Definition dim_compatible (d : option nat) (n : nat) : bool :=
  match d with
  | None => true
  | Some m => Nat.eqb m n
  end.

(** [Tensor.set_shape]: [None] leaves a dimension unconstrained; a shape
    the tensor does not have is a [ValueError]. *)
Definition set_shape (t : Tensor) (shape : option nat * option nat)
  : result Tensor :=
  if dim_compatible (fst shape) (fst (t_shape t))
     && dim_compatible (snd shape) (snd (t_shape t))
  then Return t
  else Raise (Exn ValueError "Tensor's shape is not compatible with supplied shape.").

(** A [tfd.Distribution] with scalar parameters: its density, CDF and
    quantile act on each element. *)
Record Distribution : Type := mkDistribution {
  prob : float -> float;
  cdf : float -> float;
  quantile : float -> float
}.

(** The part of a [Space] the wrapper reads: the observables and the
    rectangular limits, one lower and one upper bound per observable. *)
Record Space : Type := mkSpace {
  obs : list string;
  rect_lower : list float;
  rect_upper : list float
}.

Definition n_obs (limits : Space) : nat := length (obs limits).

Definition rect_limits (limits : Space) : list float * list float :=
  (rect_lower limits, rect_upper limits).

Section Sampling.

(** [z.random.uniform(shape, minval, maxval)]: the random source is not
    part of the modelled code. *)
Variable uniform : nat * nat -> list float -> list float -> Tensor.

(** [tfd_analytic_sample] *)
Definition tfd_analytic_sample (n : nat) (dist : Distribution) (limits : Space)
  : result Tensor :=
  let '(lower_bound, upper_bound) := rect_limits limits in
  let lower_prob_lim := map (cdf dist) lower_bound in
  let upper_prob_lim := map (cdf dist) upper_bound in
  let shape := (n, 1) in
  let prob_sample := uniform shape lower_prob_lim upper_prob_lim in
  prob_sample <- set_shape prob_sample (None, Some 1) ;;
  let sample := map_tensor (quantile dist) prob_sample in
  sample <- set_shape sample (None, Some (n_obs limits)) ;;
  Return sample.

End Sampling.

(** A value given once, or a zero-argument factory called at each use. *)
Inductive provider (A : Type) : Type :=
| Static (a : A)
| Factory (f : unit -> A).

Arguments Static {A} a.
Arguments Factory {A} f.

Definition provide {A : Type} (p : provider A) : A :=
  match p with
  | Static a => a
  | Factory f => f tt
  end.

(** [WrapDistribution]: [P] and [K] are the types of the distribution's
    parameters and keyword arguments. *)
Record WrapDistribution (P K : Type) : Type := mkWrapDistribution {
  wd_name : string;
  wd_obs : Space;
  _distribution : P -> K -> string -> Distribution;
  dist_params : provider P;
  dist_kwargs : provider K
}.

Arguments mkWrapDistribution {P K}.
Arguments wd_name {P K} w.
Arguments wd_obs {P K} w.
Arguments _distribution {P K} w.
Arguments dist_params {P K} w.
Arguments dist_kwargs {P K} w.

(** [WrapDistribution.distribution] *)
Definition distribution {P K : Type} (self : WrapDistribution P K) : Distribution :=
  let params := provide (dist_params self) in
  let kwargs := provide (dist_kwargs self) in
  _distribution self params kwargs (wd_name self ++ "_tfp").

(** [tf.debugging.assert_all_finite]: neither NaN nor an infinity. *)
Definition assert_all_finite (xs : list float) (message : string) : result unit :=
  if forallb PrimFloat.is_finite xs
  then Return tt
  else Raise (Exn InvalidArgumentError message).

Definition sub_each (xs ys : list float) : list float :=
  map (fun xy => (fst xy - snd xy)%float) (combine xs ys).

(** [WrapDistribution._analytic_integrate]; [limits._rect_limits_tf]
    unstacked is one lower and one upper bound per axis. *)
Definition _analytic_integrate {P K : Type} (self : WrapDistribution P K)
    (limits : Space) : result (list float) :=
  let '(lower, upper) := rect_limits limits in
  _ <- assert_all_finite (lower ++ upper)
         "Are infinite limits needed? Causes troubles with NaNs" ;;
  Return (sub_each (map (cdf (distribution self)) upper)
                   (map (cdf (distribution self)) lower)).

(** [WrapDistribution._analytic_sample] *)
Definition _analytic_sample {P K : Type}
    (uniform : nat * nat -> list float -> list float -> Tensor)
    (self : WrapDistribution P K) (n : nat) (limits : Space) : result Tensor :=
  tfd_analytic_sample uniform n (distribution self) limits.

Section Params.

Variable cast_number : float -> float.
Variable to_real : float -> float.
Variable collections : Type.
Variable add_to_collection :
  string -> parameter.BaseParameter -> collections -> collections.

(** The [params] of [WrapDistribution.__init__] when they are given:
    every value goes through [convert_to_parameter], in the order of the
    dict; the first failure ends the loop. *)
Fixpoint convert_params (params : list (string * parameter.param_input))
    (g : collections) : result (list (string * parameter.Param)) * collections :=
  match params with
  | [] => (Return [], g)
  | (k, p) :: rest =>
      let '(r, g) :=
        parameter.convert_to_parameter cast_number to_real add_to_collection p g in
      match r with
      | Raise e => (Raise e, g)
      | Return q =>
          let '(rs, g) := convert_params rest g in
          (qs <- rs ;; Return ((k, q) :: qs), g)
      end
  end.

End Params.

Arguments convert_params cast_number to_real {collections} add_to_collection.

(** *** GaussianKDE1DimExactV1 *)

(** The [data] argument: a [ZfitData], which may carry weights, or a bare
    tensor. *)
Inductive data_input : Type :=
| ZfitData (values : list float) (weights : option (list float))
| TensorData (values : list float).

(** The [bandwidth] argument: a string naming a method, a float tensor,
    or a Python complex. *)
Inductive bandwidth_input : Type :=
| BwStr (s : string)
| BwNum (b : list float)
| BwComplex (re im : float).

(** The value under the key bandwidth of the [params] handed to the
    parent constructor, when it is real: a float tensor, or a Python
    number. *)
Inductive real_value : Type :=
| TensorValue (t : list float)
| NumberValue (x : float).

(** A parameter that [convert_to_parameter] has made of such a value: the
    name it was made with, the tensor it holds and its flag. *)
Record fixed_parameter : Type := mkFixed {
  fixed_name : string;
  fixed_value : list float;
  fixed_floating : bool
}.

(** What the constructor leaves in the object: [kde_params_bandwidth] is
    the value of [params] under the key bandwidth, [kde_params] the
    parameters the parent constructor has made of [params]. *)
Record GaussianKDE1DimExactV1 : Type := mkKDE {
  kde_name : string;
  kde_obs : Space;
  kde_data : list float;
  kde_probs : list float;
  kde_params_bandwidth : list float;
  kde_params : list (string * fixed_parameter);
  _data_weights : option (list float);
  bandwidth : list float
}.

(** A finished construction: the object, and the constructions of the
    instances built while it was being constructed. *)
Inductive construction : Type :=
| Built (self : GaussianKDE1DimExactV1) (nested : list construction).

Definition to_float (n : nat) : float :=
  PrimFloat.of_uint63 (Uint63.of_Z (Z.of_nat n)).

(** [name or distribution.name] *)
Definition name_or (name default : string) : string :=
  match name with
  | EmptyString => default
  | _ => name
  end.

Section KDE.

(** The bandwidth rules of module [kde], [BasePDF.pdf], [tf.reduce_sum],
    [ztf.to_real] and the [name] of the TensorFlow Probability
    distribution are not part of the modelled code. *)
Variable bandwidth_silverman : list float -> list float.
Variable bandwidth_scott : list float -> list float.
Variable bandwidth_adaptiveV1 :
  list float -> list float -> (list float -> list float) -> list float.
Variable pdf : GaussianKDE1DimExactV1 -> list float -> list float.
Variable reduce_sum : list float -> float.
Variable to_real : float -> float.
Variable distribution_name : string.

(** The first block of [__init__]: take the weights of a weighted
    [ZfitData], refuse weights given twice, unstack the data. *)
Definition unpack_data (data : data_input) (weights : option (list float))
  : result (list float * option (list float)) :=
  match data with
  | ZfitData values (Some data_weights) =>
      match weights with
      | Some _ =>
          Raise (Exn OverdefinedError
                     "Cannot specify weights and use a `ZfitData` with weights.")
      | None => Return (values, Some data_weights)
      end
  | ZfitData values None => Return (values, weights)
  | TensorData values => Return (values, weights)
  end.

(** [convert_to_parameter] of module [parameter] on a real value that is
    no variable: a Python number goes through [ztf.to_real], and the
    value becomes a parameter made with the name FIXED_autoparam whose
    flag is set to false. *)
Definition convert_real_to_parameter (value : real_value) : fixed_parameter :=
  let value :=
    match value with
    | TensorValue t => t
    | NumberValue x => [to_real x]
    end in
  mkFixed "FIXED_autoparam" value false.

(** The end of [__init__]: the parameter dictionary, the call of the
    parent constructor, which converts the values of [params] and takes
    the name of the distribution when the name is empty, and the two
    attributes set after it. *)
Definition finish (obs : Space) (name : string) (data probs : list float)
    (weights : option (list float)) (bandwidth : list float)
    (adaptive : bool) (nested : list construction) : construction :=
  let bandwidth_param :=
    if adaptive then NumberValue (-999)%float else TensorValue bandwidth in
  let params := [("bandwidth", convert_real_to_parameter bandwidth_param)] in
  let name := name_or name distribution_name in
  Built (mkKDE name obs data probs
               (match bandwidth_param with
                | TensorValue t => t
                | NumberValue x => [x]
                end)
               params weights bandwidth) nested.

(** [GaussianKDE1DimExactV1.__init__].  The constructor calls itself, so
    the model counts calls down from [fuel]; [None] means the count ran
    out.  A Python complex handed over as bandwidth is no string, so it
    is the value of [params] under the key bandwidth, and
    [convert_to_parameter], called by the parent constructor, refuses
    it. *)
Fixpoint GaussianKDE1DimExactV1_init (fuel : nat) (obs : Space)
    (data : data_input) (bandwidth : option bandwidth_input)
    (weights : option (list float)) (name : string)
  : option (result construction) :=
  match fuel with
  | O => None
  | S fuel =>
      let bandwidth :=
        match bandwidth with
        | None => BwStr "silverman"
        | Some b => b
        end in
      match unpack_data data weights with
      | Raise e => Some (Raise e)
      | Return (data, weights) =>
          let size := to_float (length data) in
          let probs :=
            match weights with
            | Some w => map (fun x => (x / reduce_sum w)%float) w
            | None => repeat (1 / size)%float (length data)
            end in
          match bandwidth with
          | BwStr s =>
              if String.eqb s "silverman" then
                Some (Return (finish obs name data probs weights
                                     (bandwidth_silverman data) false []))
              else if String.eqb s "scott" then
                Some (Return (finish obs name data probs weights
                                     (bandwidth_scott data) false []))
              else if String.eqb s "adaptiveV1" then
                match GaussianKDE1DimExactV1_init fuel obs (TensorData data)
                        (Some (BwStr "silverman")) weights
                        ("INTERNAL_" ++ name) with
                | None => None
                | Some (Raise e) => Some (Raise e)
                | Some (Return (Built kde_silverman inner)) =>
                    Some (Return
                            (finish obs name data probs weights
                               (bandwidth_adaptiveV1 data
                                  (dist_tfp.bandwidth kde_silverman)
                                  (pdf kde_silverman))
                               true [Built kde_silverman inner]))
                end
              else
                Some (Raise (Exn ValueError
                               ("Cannot use " ++ s ++
                                " as a bandwidth method. Use numerical or a defined string.")))
          | BwNum b =>
              Some (Return (finish obs name data probs weights b false []))
          | BwComplex re im =>
              Some (Raise (Exn ValueError "Complex parameters not yet implemented"))
          end
      end
  end.

End KDE.

End dist_tfp.

(** ** zfit.models.convolution *)

Module convolution.

(** The text before the first colon, and the text after it if there is a
    colon. *)
Fixpoint split_colon (s : string) : string * option string :=
  match s with
  | EmptyString => (EmptyString, None)
  | String c rest =>
      if Ascii.eqb c ":"%char then (EmptyString, Some rest)
      else let '(head, tail) := split_colon rest in (String c head, tail)
  end.

Definition digit_of (c : ascii) : option nat :=
  let n := nat_of_ascii c in
  if Nat.leb 48 n && Nat.leb n 57 then Some (n - 48) else None.

Fixpoint parse_digits (s : string) (acc : nat) : option nat :=
  match s with
  | EmptyString => Some acc
  | String c rest =>
      match digit_of c with
      | Some d => parse_digits rest (10 * acc + d)
      | None => None
      end
  end.

(** A positive integer written in decimal digits. *)
Definition parse_positive (s : string) : option nat :=
  match s with
  | EmptyString => None
  | _ =>
      match parse_digits s 0 with
      | Some (S n) => Some (S n)
      | _ => None
      end
  end.

(** The configuration an [FFTConvV1] keeps. *)
Record FFTConvV1 : Type := mkFFTConvV1 {
  conv_n : nat;
  interpolation : string;
  _spline_order : nat
}.

(** Modelled from the spec: [FFTConvV1.__init__] (module
    [zfit.models.convolution] is not among the sources; the tests only
    read [_spline_order]).  The interpolation is [linear], [spline] or
    [spline:<k>]; [k] must be a positive integer parsed from the string,
    the order is cubic when none is given, and an invalid specification
    fails with [ConfigurationError]. *)
Definition FFTConvV1_init (n : nat) (interpolation : string) : result FFTConvV1 :=
  let invalid :=
    Raise (Exn ConfigurationError "invalid interpolation specification") in
  match split_colon interpolation with
  | (kind, None) =>
      if String.eqb kind "linear" || String.eqb kind "spline"
      then Return (mkFFTConvV1 n kind 3)
      else invalid
  | (kind, Some k) =>
      if String.eqb kind "spline" then
        match parse_positive k with
        | Some order => Return (mkFFTConvV1 n kind order)
        | None => invalid
        end
      else invalid
  end.

End convolution.

(** ** Concrete objects used by the examples *)

Module examples.

Import parameter dist_tfp.

Definition frozen_floating : BaseParameter :=
  mkBaseParameter "mu" 1%float false (Some true).

Definition free_param : BaseParameter :=
  mkBaseParameter "c" 1%float true (Some true).

Definition open_param : Param :=
  mkParam (mkBaseParameter "a" 1%float true (Some true)) 1%float None
          (- infinity)%float infinity.

Definition boxed_param : Param :=
  mkParam (mkBaseParameter "b" 1%float true (Some true)) 1%float None
          (-5)%float 5%float.

(** [tfp.distributions.Uniform(low, high)] *)
Definition Uniform_tfp (lh : float * float) (_ : unit) (_ : string) : Distribution :=
  let '(low, high) := lh in
  mkDistribution
    (fun x => if PrimFloat.leb low x && PrimFloat.leb x high
              then (1 / (high - low))%float else 0%float)
    (fun x => if PrimFloat.ltb x low then 0%float
              else if PrimFloat.ltb high x then 1%float
              else ((x - low) / (high - low))%float)
    (fun p => (low + p * (high - low))%float).

Definition obs1 : Space := mkSpace ["obs1"] [(-1)%float] [1%float].

Definition obs1_open : Space := mkSpace ["obs1"] [(-1)%float] [infinity].

Definition obs12 : Space :=
  mkSpace ["obs1"; "obs2"] [(-1)%float; (-2)%float] [1%float; 2%float].

Definition flat : WrapDistribution (float * float) unit :=
  mkWrapDistribution "Uniform" obs1 Uniform_tfp
                     (Static ((-2)%float, 2%float)) (Static tt).

(** A random source that always draws the lower end, shaped as
    TensorFlow broadcasts [shape] against [minval]. *)
Definition lowest_draw (shape : nat * nat) (minval maxval : list float) : Tensor :=
  mkTensor (fst shape, Nat.max (snd shape) (length minval))
           (repeat minval (fst shape)).

(** Stand-ins for the bandwidth rules and the density of a KDE. *)
Definition unit_bandwidth (data : list float) : list float := [1%float].

Definition same_bandwidth (data bw : list float)
    (func : list float -> list float) : list float :=
  map (fun _ => 1%float) data.

Definition zero_pdf (self : GaussianKDE1DimExactV1) (x : list float) : list float :=
  map (fun _ => 0%float) x.

Definition sample3 : list float := [1%float; 2%float; 4%float].

Definition ones3 : list float := [1%float; 1%float; 1%float].

(** A wrapped uniform distribution whose parameters come from a
    factory. *)
Definition flat_wide : WrapDistribution (float * float) unit :=
  mkWrapDistribution "Uniform" obs1 Uniform_tfp
                     (Factory (fun _ => ((-4)%float, 4%float))) (Static tt).

(** Stand-ins for the casts and for the graph's collections: casts that
    keep the number, and a collection kept as the list of the names of
    the variables added, the latest first. *)
Definition keep_number (x : float) : float := x.

Definition add_name (collection : string) (p : BaseParameter) (g : list string)
  : list string :=
  name p :: g.

Definition sum_left (xs : list float) : float :=
  fold_left PrimFloat.add xs 0%float.

End examples.

(** ** Vocabulary of the statements *)

Module vocabulary.

Import dist_tfp.

(** The weights come both with the data and as an argument. *)
Definition weights_given_twice (data : data_input)
    (weights : option (list float)) : Prop :=
  exists values data_weights w,
    data = ZfitData values (Some data_weights) /\ weights = Some w.

(** The data as a bare tensor. *)
Definition values_of (data : data_input) : list float :=
  match data with
  | ZfitData values _ => values
  | TensorData values => values
  end.

(** The weights the constructor works with: those of the dataset, else
    those of the argument. *)
Definition effective_weights (data : data_input)
    (weights : option (list float)) : option (list float) :=
  match data with
  | ZfitData _ (Some w) => Some w
  | _ => weights
  end.

(** The bandwidth argument is a string that names no method. *)
Definition unknown_method (bw : option bandwidth_input) : Prop :=
  exists s, bw = Some (BwStr s)
            /\ s <> "silverman" /\ s <> "scott" /\ s <> "adaptiveV1".

(** A digit. *)
Definition is_digit (c : ascii) : bool :=
  match convolution.digit_of c with
  | Some _ => true
  | None => false
  end.

(** A string that writes a positive integer: not empty, digits only, not
    all of them zero. *)
Definition is_positive_integer (k : string) : Prop :=
  k <> EmptyString
  /\ (forall c, In c (list_ascii_of_string k) -> is_digit c = true)
  /\ (exists c, In c (list_ascii_of_string k) /\ c <> "0"%char).

(** The bandwidth argument is a Python complex. *)
Definition complex_bandwidth (bw : option bandwidth_input) : Prop :=
  exists re im, bw = Some (BwComplex re im).

(** The decimal writing of a number. *)
Definition decimal (n : nat) : string :=
  NilEmpty.string_of_uint (Nat.to_uint n).

(** The number a string of digits writes, read by the standard library. *)
Definition decimal_value (k : string) : option nat :=
  option_map Nat.of_uint (NilEmpty.uint_of_string k).

End vocabulary.

(** * Properties *)

Import examples vocabulary.

(** ** Parameters *)

Section ParameterProperties.
Import parameter.

(** C1, as stated, fails: the error raised by reading [floating] on a
    floating, non-trainable parameter is not of a class called
    ConsistencyError. *)
Lemma floating_read_not_ConsistencyError :
  ~ raises (floating frozen_floating) "ConsistencyError".
Proof.
  intros [e [Hr Hn]]. cbv in Hr. injection Hr as <-. discriminate Hn.
Qed.

(** C1 (amended): a parameter constructed floating over a non-trainable
    variable is constructed without error, and every read of [floating]
    on a parameter whose flag is true and whose variable is not trainable
    raises RuntimeError; no value is returned. *)
Theorem floating_read_raises_RuntimeError :
  (forall nm iv, exists p,
      BaseParameter_init nm iv (PyBool true) (Some false) = Return p
      /\ _floating p = Some true /\ trainable p = false)
  /\ (forall p, _floating p = Some true -> trainable p = false ->
        floating p
        = Raise (Exn RuntimeError
                     "Floating is set to true but tf Variable is not trainable.")
        /\ raises (floating p) "RuntimeError"
        /\ ~ returns (floating p)).
Proof.
  split.
  - intros nm iv. eexists. repeat split.
  - intros p Hf Ht. unfold floating. rewrite Hf, Ht. cbn.
    repeat split.
    + eexists. split; reflexivity.
    + intros [a Ha]. discriminate Ha.
Qed.

Lemma floating_read_raises_RuntimeError_witness :
  floating frozen_floating
  = Raise (Exn RuntimeError
               "Floating is set to true but tf Variable is not trainable.").
Proof.
  apply (proj2 floating_read_raises_RuntimeError frozen_floating);
    reflexivity.
Defined.

(** No float is strictly below itself. *)
Lemma ltb_irrefl (x : float) : PrimFloat.ltb x x = false.
Proof.
  rewrite FloatAxioms.ltb_spec. unfold SpecFloat.SFltb, SpecFloat.SFcompare.
  destruct (Prim2SF x) as [s | s | | s m e]; try destruct s; try reflexivity;
    rewrite Z.compare_refl, Pos.compare_cont_refl; reflexivity.
Qed.

(** Every unset step size reads as the one default, the cast of 0.001:
    the comparison of that constant with NaN is false, so the branch that
    looks at the limits is never taken. *)
Lemma step_size_unset (to_real : float -> float) (p : Param) :
  _step_size p = None -> step_size to_real p = Return (to_real 0.001%float).
Proof.
  intros Hs. unfold step_size. rewrite Hs. reflexivity.
Qed.

(** C2, as stated, fails: whatever [ztf.to_real] does, there are no two
    defaults, one strictly smaller than the other, such that a parameter
    with finite limits reads the larger and a parameter with infinite
    limits reads the smaller. *)
Lemma step_size_no_smaller_default :
  ~ exists (to_real : float -> float) (d d_open : float),
      PrimFloat.ltb d_open d = true
      /\ step_size to_real boxed_param = Return d
      /\ step_size to_real open_param = Return d_open.
Proof.
  intros [to_real [d [d_open [Hlt [Hb Ho]]]]].
  rewrite step_size_unset in Hb by reflexivity.
  rewrite step_size_unset in Ho by reflexivity.
  injection Hb as <-. injection Ho as <-.
  rewrite ltb_irrefl in Hlt. discriminate Hlt.
Qed.

(** C2 (amended): a parameter whose step size was not set reads the one
    constant default, [ztf.to_real] of 0.001, whatever its limits,
    infinite ones included: any two parameters without a step size read
    the same value. *)
Theorem step_size_default_constant (to_real : float -> float) (p : Param) :
  _step_size p = None ->
  step_size to_real p = Return (to_real 0.001%float)
  /\ (PrimFloat.eqb (lower_limit p) (- infinity)%float = true
      \/ PrimFloat.eqb (upper_limit p) infinity = true ->
      step_size to_real p = Return (to_real 0.001%float))
  /\ (forall q, _step_size q = None -> step_size to_real q = step_size to_real p).
Proof.
  intros Hs. split; [| split].
  - apply step_size_unset; exact Hs.
  - intros _. apply step_size_unset; exact Hs.
  - intros q Hq. rewrite !step_size_unset by assumption. reflexivity.
Qed.

Lemma step_size_default_constant_witness :
  step_size keep_number open_param = Return 0.001%float
  /\ step_size keep_number boxed_param = step_size keep_number open_param.
Proof.
  split.
  - apply (proj1 (step_size_default_constant keep_number open_param eq_refl)).
  - apply (proj2 (proj2 (step_size_default_constant keep_number open_param eq_refl))
             boxed_param eq_refl).
Defined.

(** C10: assigning a value that is not a boolean to [floating] raises
    TypeError and the parameter, its stored flag included, is left as it
    was. *)
Theorem floating_setter_rejects_non_bool (p : BaseParameter) (v : pyval) :
  isinstance_bool v = false ->
  floating_setter v p
  = (Raise (Exn TypeError "floating has to be a boolean."), p)
  /\ raises (fst (floating_setter v p)) "TypeError"
  /\ _floating (snd (floating_setter v p)) = _floating p.
Proof.
  intros Hv. destruct v; try discriminate Hv; cbn; repeat split;
    eexists; split; reflexivity.
Qed.

Lemma floating_setter_rejects_non_bool_witness :
  floating_setter (PyInt 1%Z) free_param
  = (Raise (Exn TypeError "floating has to be a boolean."), free_param).
Proof.
  apply (proj1 (floating_setter_rejects_non_bool free_param (PyInt 1%Z) eq_refl)).
Defined.

End ParameterProperties.

(** ** Wrapped distributions *)

Section WrapProperties.
Import dist_tfp.

Lemma forallb_false_Exists (f : float -> bool) (xs : list float) :
  Exists (fun x => f x = false) xs -> forallb f xs = false.
Proof.
  induction 1 as [x xs Hx | x xs _ IH]; cbn.
  - rewrite Hx. reflexivity.
  - rewrite IH. apply andb_false_r.
Qed.

Lemma forallb_true_Forall (f : float -> bool) (xs : list float) :
  Forall (fun x => f x = true) xs -> forallb f xs = true.
Proof.
  induction 1 as [| x xs Hx _ IH]; cbn.
  - reflexivity.
  - rewrite Hx, IH. reflexivity.
Qed.

(** C3, as stated, fails: the error raised over a non-finite limit is not
    of a class called NumericalInstabilityError. *)
Lemma analytic_integrate_not_NumericalInstabilityError :
  ~ raises (_analytic_integrate flat obs1_open) "NumericalInstabilityError".
Proof.
  intros [e [Hr Hn]]. vm_compute in Hr. injection Hr as <-. discriminate Hn.
Qed.

(** C3 (amended): analytic integration fails on the finiteness assertion,
    with InvalidArgumentError, as soon as one limit is NaN or infinite,
    before any CDF is taken; over finite limits it returns
    CDF(upper) - CDF(lower), axis by axis, of the distribution that the
    wrapped constructor makes of the wrapper's parameters and keyword
    arguments as they are at the call, under the wrapper's name followed
    by _tfp. *)
Theorem analytic_integrate_finite_or_fails
    {P K : Type} (self : WrapDistribution P K) (limits : Space) :
  let dist :=
    _distribution self (provide (dist_params self)) (provide (dist_kwargs self))
                  (wd_name self ++ "_tfp")%string in
  (Exists (fun x => PrimFloat.is_finite x = false)
          (rect_lower limits ++ rect_upper limits) ->
   _analytic_integrate self limits
   = Raise (Exn InvalidArgumentError
                "Are infinite limits needed? Causes troubles with NaNs")
   /\ raises (_analytic_integrate self limits) "InvalidArgumentError")
  /\ (Forall (fun x => PrimFloat.is_finite x = true)
             (rect_lower limits ++ rect_upper limits) ->
      _analytic_integrate self limits
      = Return (sub_each (map (cdf dist) (rect_upper limits))
                         (map (cdf dist) (rect_lower limits))))
  /\ (forall nm lower upper,
        limits = mkSpace [nm] [lower] [upper] ->
        PrimFloat.is_finite lower = true ->
        PrimFloat.is_finite upper = true ->
        _analytic_integrate self limits
        = Return [(cdf dist upper - cdf dist lower)%float]).
Proof.
  intros dist.
  unfold _analytic_integrate, assert_all_finite, rect_limits, distribution.
  fold dist.
  split; [| split].
  - intros Hex. rewrite (forallb_false_Exists _ _ Hex). cbn.
    split; [reflexivity | eexists; split; reflexivity].
  - intros Hall. rewrite (forallb_true_Forall _ _ Hall). reflexivity.
  - intros nm lower upper -> Hl Hu. cbn. rewrite Hl, Hu. reflexivity.
Qed.

Lemma analytic_integrate_finite_or_fails_witness :
  _analytic_integrate flat obs1_open
  = Raise (Exn InvalidArgumentError
               "Are infinite limits needed? Causes troubles with NaNs")
  /\ _analytic_integrate flat obs1 = Return [0.5%float]
  /\ _analytic_integrate flat_wide obs1 = Return [0.25%float].
Proof.
  split; [| split].
  - apply (proj1 (analytic_integrate_finite_or_fails flat obs1_open)).
    right. left. reflexivity.
  - apply (proj2 (proj2 (analytic_integrate_finite_or_fails flat obs1))
             "obs1" (-1)%float 1%float); reflexivity.
  - apply (proj2 (proj2 (analytic_integrate_finite_or_fails flat_wide obs1))
             "obs1" (-1)%float 1%float); reflexivity.
Defined.

(** Whatever the random source returns, sampling over limits that do not
    have exactly one axis raises: either the draw does not have one column
    and the first shape assertion refuses it, or it has one column, which
    the second assertion refuses. *)
Lemma analytic_sample_needs_one_axis
    (uniform : nat * nat -> list float -> list float -> Tensor)
    (n : nat) (dist : Distribution) (limits : Space) :
  n_obs limits <> 1 ->
  raises (tfd_analytic_sample uniform n dist limits) "ValueError".
Proof.
  intros Hobs. apply Nat.eqb_neq in Hobs.
  unfold tfd_analytic_sample, rect_limits.
  set (t := uniform _ _ _).
  unfold set_shape. cbn [fst snd dim_compatible andb].
  destruct (Nat.eqb 1 (snd (t_shape t))) eqn:Hcol.
  - apply Nat.eqb_eq in Hcol. cbn. rewrite <- Hcol, Hobs.
    eexists. split; reflexivity.
  - eexists. split; reflexivity.
Qed.

(** C6: the code departs from the documented result.  Sampling three
    points of the wrapped uniform distribution over two-axis limits does
    not give a tensor of three rows and one column per axis: the draw,
    broadcast to two columns, is refused by the assertion that it has one
    column, and the call raises ValueError; over these limits it does so
    for every distribution, sample size and random source. *)
Lemma analytic_sample_two_axes_raises :
  _analytic_sample lowest_draw flat 3 obs12
  = Raise (Exn ValueError "Tensor's shape is not compatible with supplied shape.")
  /\ ~ (exists t, _analytic_sample lowest_draw flat 3 obs12 = Return t
                  /\ t_shape t = (3, 2))
  /\ (forall uniform n dist,
        raises (tfd_analytic_sample uniform n dist obs12) "ValueError").
Proof.
  assert (H : _analytic_sample lowest_draw flat 3 obs12
              = Raise (Exn ValueError
                           "Tensor's shape is not compatible with supplied shape."))
    by (vm_compute; reflexivity).
  split; [exact H | split].
  - intros [t [Ht _]]. rewrite H in Ht. discriminate Ht.
  - intros uniform n dist. apply analytic_sample_needs_one_axis. discriminate.
Qed.

(** Over one-axis limits the sampler asks the random source for a tensor
    of shape (n, 1) between CDF(lower) and CDF(upper); when the source
    answers with [n] draws in that interval, the result is the (n, 1)
    tensor of their quantiles.  The two shape assertions fix the column
    count only (one, then the number of axes). *)
Lemma analytic_sample_one_axis
    {P K : Type} (uniform : nat * nat -> list float -> list float -> Tensor)
    (self : WrapDistribution P K) (n : nat) (nm : string) (lower upper : float)
    (us : list float) :
  let dist := distribution self in
  uniform (n, 1) [cdf dist lower] [cdf dist upper]
  = mkTensor (n, 1) (map (fun u => [u]) us) ->
  length us = n ->
  Forall (fun u => PrimFloat.leb (cdf dist lower) u = true
                   /\ PrimFloat.leb u (cdf dist upper) = true) us ->
  exists t,
    _analytic_sample uniform self n (mkSpace [nm] [lower] [upper]) = Return t
    /\ t = mkTensor (n, 1) (map (fun u => [quantile dist u]) us)
    /\ length (t_rows t) = n
    /\ Forall (fun row => exists u,
                 row = [quantile dist u]
                 /\ PrimFloat.leb (cdf dist lower) u = true
                 /\ PrimFloat.leb u (cdf dist upper) = true) (t_rows t).
Proof.
  intros dist Hdraw Hlen Hin.
  eexists. split; [| split; [reflexivity | split]].
  - unfold _analytic_sample, tfd_analytic_sample, rect_limits. cbn.
    fold dist. rewrite Hdraw. cbn. unfold map_tensor. cbn.
    rewrite map_map. reflexivity.
  - cbn. rewrite length_map. exact Hlen.
  - cbn. clear Hdraw Hlen. induction Hin as [| u us [Hl Hu] _ IH]; cbn.
    + constructor.
    + constructor; [exists u; repeat split; assumption | exact IH].
Qed.

End WrapProperties.

(** ** Kernel density estimate *)

Section KDEProperties.
Import dist_tfp.

Variable bandwidth_silverman : list float -> list float.
Variable bandwidth_scott : list float -> list float.
Variable bandwidth_adaptiveV1 :
  list float -> list float -> (list float -> list float) -> list float.
Variable pdf : GaussianKDE1DimExactV1 -> list float -> list float.
Variable reduce_sum : list float -> float.
Variable to_real : float -> float.
Variable distribution_name : string.

Local Notation "'init'" :=
  (GaussianKDE1DimExactV1_init bandwidth_silverman bandwidth_scott
                               bandwidth_adaptiveV1 pdf reduce_sum to_real
                               distribution_name).

Lemma unpack_data_once (data : data_input) (weights : option (list float)) :
  ~ weights_given_twice data weights ->
  exists w, unpack_data data weights = Return (values_of data, w).
Proof.
  intros Hnot. destruct data as [values [dw |] | values]; cbn.
  - destruct weights as [w |].
    + exfalso. apply Hnot. exists values, dw, w. split; reflexivity.
    + eexists. reflexivity.
  - eexists. reflexivity.
  - eexists. reflexivity.
Qed.

(** C4 (amended): weights given both as an argument and with the dataset
    make the constructor raise OverdefinedError in its first call, before
    anything is built, whatever the bandwidth argument; this is the only
    way the first block of the constructor fails. *)
Theorem kde_weights_twice_raises_OverdefinedError
    (fuel : nat) (obs : Space) (values data_weights w : list float)
    (bw : option bandwidth_input) (name : string) :
  init (S fuel) obs (ZfitData values (Some data_weights)) bw (Some w) name
  = Some (Raise (Exn OverdefinedError
                     "Cannot specify weights and use a `ZfitData` with weights."))
  /\ (forall data weights e,
        unpack_data data weights = Raise e ->
        weights_given_twice data weights
        /\ class_name (exn_cls e) = "OverdefinedError").
Proof.
  split; [reflexivity |].
  intros data weights e He.
  destruct data as [vs [dw |] | vs]; try discriminate He.
  destruct weights as [ws |]; try discriminate He.
  injection He as <-. split; [| reflexivity].
  exists vs, dw, ws. split; reflexivity.
Qed.

(** C5 (amended): a bandwidth string other than silverman, scott and
    adaptiveV1 makes the constructor raise ValueError in its first call,
    unless the weights were given twice, which is reported first. *)
Theorem kde_unknown_bandwidth_raises_ValueError
    (fuel : nat) (obs : Space) (data : data_input)
    (weights : option (list float)) (s name : string) :
  s <> "silverman" -> s <> "scott" -> s <> "adaptiveV1" ->
  (~ weights_given_twice data weights ->
   init (S fuel) obs data (Some (BwStr s)) weights name
   = Some (Raise (Exn ValueError
                      ("Cannot use " ++ s ++
                       " as a bandwidth method. Use numerical or a defined string.")%string)))
  /\ (weights_given_twice data weights ->
      init (S fuel) obs data (Some (BwStr s)) weights name
      = Some (Raise (Exn OverdefinedError
                         "Cannot specify weights and use a `ZfitData` with weights."))).
Proof.
  intros H1 H2 H3.
  apply String.eqb_neq in H1, H2, H3.
  split.
  - intros Hnot. destruct (unpack_data_once data weights Hnot) as [w Hw].
    cbn. rewrite Hw, H1, H2, H3. reflexivity.
  - intros [values [dw [w [-> ->]]]]. reflexivity.
Qed.

(** C7: with two calls of the constructor available, construction with
    the adaptive heuristic (adaptiveV1) never runs out; unless the weights
    were given twice it returns, having built exactly one nested instance,
    named INTERNAL_<name>, with the silverman bandwidth of the same data,
    and that instance built none.  One call alone is not enough: the
    nested call is made. *)
Theorem kde_adaptive_one_nested_level
    (fuel : nat) (obs : Space) (data : data_input)
    (weights : option (list float)) (name : string) :
  init (S (S fuel)) obs data (Some (BwStr "adaptiveV1")) weights name <> None
  /\ (~ weights_given_twice data weights ->
      init 1 obs data (Some (BwStr "adaptiveV1")) weights name = None
      /\ exists self inner,
          init (S (S fuel)) obs data (Some (BwStr "adaptiveV1")) weights name
          = Some (Return (Built self [Built inner []]))
          /\ kde_name inner = ("INTERNAL_" ++ name)%string
          /\ kde_data inner = values_of data
          /\ bandwidth inner = bandwidth_silverman (values_of data)
          /\ kde_params_bandwidth inner = bandwidth inner
          /\ bandwidth self
             = bandwidth_adaptiveV1 (values_of data) (bandwidth inner) (pdf inner)).
Proof.
  assert (Hok : ~ weights_given_twice data weights ->
                init 1 obs data (Some (BwStr "adaptiveV1")) weights name = None
                /\ exists self inner,
                  init (S (S fuel)) obs data (Some (BwStr "adaptiveV1"))
                       weights name
                  = Some (Return (Built self [Built inner []]))
                  /\ kde_name inner = ("INTERNAL_" ++ name)%string
                  /\ kde_data inner = values_of data
                  /\ bandwidth inner = bandwidth_silverman (values_of data)
                  /\ kde_params_bandwidth inner = bandwidth inner
                  /\ bandwidth self
                     = bandwidth_adaptiveV1 (values_of data) (bandwidth inner)
                                            (pdf inner)).
  { intros Hnot. destruct (unpack_data_once data weights Hnot) as [w Hw].
    split.
    - cbn. rewrite Hw. reflexivity.
    - cbn. rewrite Hw. cbn. do 2 eexists. split; [reflexivity |].
      cbn. repeat split. }
  split; [| exact Hok].
  destruct data as [values [dw |] | values]; destruct weights as [w |];
    try (cbn; discriminate);
    match goal with
    | |- init _ _ ?d _ ?ws _ <> None =>
        assert (Hnot : ~ weights_given_twice d ws)
          by (intros [v [d' [w' [Hd Hw']]]]; discriminate);
        destruct (proj2 (Hok Hnot)) as [self [inner [Hrun _]]];
        rewrite Hrun; discriminate
    end.
Qed.

End KDEProperties.

(** C4, as stated, fails: the error raised for weights given twice is not
    of a class called ConfigurationError. *)
Lemma kde_weights_twice_not_ConfigurationError :
  ~ exists e,
      dist_tfp.GaussianKDE1DimExactV1_init
        unit_bandwidth unit_bandwidth same_bandwidth zero_pdf sum_left
        keep_number "MixtureSameFamily"
        1 obs1 (dist_tfp.ZfitData sample3 (Some ones3)) None (Some ones3) "kde"
      = Some (Raise e)
      /\ class_name (exn_cls e) = "ConfigurationError".
Proof.
  intros [e [He Hn]]. vm_compute in He. injection He as <-. discriminate Hn.
Qed.

Lemma kde_weights_twice_raises_OverdefinedError_witness :
  weights_given_twice (dist_tfp.ZfitData sample3 (Some ones3)) (Some ones3).
Proof.
  apply (proj2 (kde_weights_twice_raises_OverdefinedError
                  unit_bandwidth unit_bandwidth same_bandwidth zero_pdf sum_left
                  keep_number "MixtureSameFamily"
                  0 obs1 sample3 ones3 ones3 None "kde")
           (dist_tfp.ZfitData sample3 (Some ones3)) (Some ones3)
           (Exn OverdefinedError
                "Cannot specify weights and use a `ZfitData` with weights.")
           eq_refl).
Defined.

(** C5, as stated, fails: the error raised for an unknown bandwidth
    method is not of a class called ConsistencyError. *)
Lemma kde_unknown_bandwidth_not_ConsistencyError :
  ~ exists e,
      dist_tfp.GaussianKDE1DimExactV1_init
        unit_bandwidth unit_bandwidth same_bandwidth zero_pdf sum_left
        keep_number "MixtureSameFamily"
        1 obs1 (dist_tfp.TensorData sample3) (Some (dist_tfp.BwStr "adaptive"))
        None "kde"
      = Some (Raise e)
      /\ class_name (exn_cls e) = "ConsistencyError".
Proof.
  intros [e [He Hn]]. vm_compute in He. injection He as <-. discriminate Hn.
Qed.

Lemma kde_unknown_bandwidth_raises_ValueError_witness :
  dist_tfp.GaussianKDE1DimExactV1_init
    unit_bandwidth unit_bandwidth same_bandwidth zero_pdf sum_left
    keep_number "MixtureSameFamily"
    1 obs1 (dist_tfp.TensorData sample3) (Some (dist_tfp.BwStr "adaptive"))
    None "kde"
  = Some (Raise (Exn ValueError
                     "Cannot use adaptive as a bandwidth method. Use numerical or a defined string.")).
Proof.
  apply (proj1 (kde_unknown_bandwidth_raises_ValueError
                  unit_bandwidth unit_bandwidth same_bandwidth zero_pdf sum_left
                  keep_number "MixtureSameFamily"
                  0 obs1 (dist_tfp.TensorData sample3) None "adaptive" "kde"
                  ltac:(discriminate) ltac:(discriminate) ltac:(discriminate))).
  intros [v [d [w [Hd _]]]]. discriminate Hd.
Defined.

Lemma kde_adaptive_one_nested_level_witness :
  exists self inner,
    dist_tfp.GaussianKDE1DimExactV1_init
      unit_bandwidth unit_bandwidth same_bandwidth zero_pdf sum_left
      keep_number "MixtureSameFamily"
      2 obs1 (dist_tfp.ZfitData sample3 (Some ones3))
      (Some (dist_tfp.BwStr "adaptiveV1")) None "kde"
    = Some (Return (dist_tfp.Built self [dist_tfp.Built inner []]))
    /\ dist_tfp.kde_name inner = "INTERNAL_kde".
Proof.
  destruct (proj2 (kde_adaptive_one_nested_level
                     unit_bandwidth unit_bandwidth same_bandwidth zero_pdf sum_left
                     keep_number "MixtureSameFamily"
                     0 obs1 (dist_tfp.ZfitData sample3 (Some ones3)) None "kde"))
    as [_ [self [inner [Hrun [Hname _]]]]].
  - intros [v [d [w [_ Hw]]]]. discriminate Hw.
  - exists self, inner. split; [exact Hrun | exact Hname].
Defined.

(** ** FFT convolution *)

Section ConvolutionProperties.
Import convolution.

Lemma parse_digits_all_digits (k : string) :
  forall acc m, parse_digits k acc = Some m ->
  forall c, In c (list_ascii_of_string k) -> is_digit c = true.
Proof.
  induction k as [| c0 rest IH]; intros acc m Hp c Hin; cbn in *.
  - contradiction.
  - unfold is_digit. destruct (digit_of c0) as [d |] eqn:Hd; [| discriminate].
    destruct Hin as [<- | Hin].
    + rewrite Hd. reflexivity.
    + exact (IH _ _ Hp c Hin).
Qed.

Lemma digit_of_zero (c : ascii) (d : nat) :
  digit_of c = Some d -> 0 < d -> c <> "0"%char.
Proof.
  intros Hd Hpos ->. cbv in Hd. injection Hd as <-. lia.
Qed.

Lemma digit_of_nonzero (c : ascii) (d : nat) :
  digit_of c = Some d -> c <> "0"%char -> 0 < d.
Proof.
  unfold digit_of. intros Hd Hc.
  destruct (Nat.leb 48 (nat_of_ascii c) && Nat.leb (nat_of_ascii c) 57) eqn:Hr;
    [| discriminate].
  injection Hd as <-. apply andb_true_iff in Hr. destruct Hr as [Hlo _].
  apply Nat.leb_le in Hlo.
  destruct (Nat.eq_dec (nat_of_ascii c) 48) as [H48 | H48]; [| lia].
  exfalso. apply Hc. rewrite <- (ascii_nat_embedding c), H48. reflexivity.
Qed.

Lemma parse_digits_positive (k : string) :
  forall acc n, parse_digits k acc = Some (S n) ->
  0 < acc \/ exists c, In c (list_ascii_of_string k) /\ c <> "0"%char.
Proof.
  induction k as [| c0 rest IH]; intros acc n Hp; cbn in *.
  - injection Hp as ->. left. lia.
  - destruct (digit_of c0) as [d |] eqn:Hd; [| discriminate].
    destruct (IH _ _ Hp) as [Hpos | [c [Hin Hc]]].
    + destruct acc as [| acc'].
      * right. exists c0. split; [left; reflexivity |].
        apply (digit_of_zero c0 d Hd). lia.
      * left. lia.
    + right. exists c. split; [right; exact Hin | exact Hc].
Qed.

Lemma parse_positive_sound (k : string) (m : nat) :
  parse_positive k = Some m -> is_positive_integer k.
Proof.
  unfold parse_positive. destruct k as [| c rest]; [discriminate |].
  destruct (parse_digits (String c rest) 0) as [[| n] |] eqn:Hp;
    try discriminate.
  intros _. repeat split.
  - discriminate.
  - exact (parse_digits_all_digits _ _ _ Hp).
  - destruct (parse_digits_positive _ _ _ Hp) as [Hpos | Hex]; [lia | exact Hex].
Qed.

(** The parser reads the decimal writing of the standard library as the
    standard library does. *)
Lemma parse_digits_string_of_uint (d : Decimal.uint) :
  forall acc,
    parse_digits (NilEmpty.string_of_uint d) acc = Some (Nat.of_uint_acc d acc).
Proof.
  induction d; intros acc;
    cbn [NilEmpty.string_of_uint parse_digits Nat.of_uint_acc];
    [reflexivity | ..];
    match goal with
    | |- context [digit_of ?c] =>
        let v := eval vm_compute in (digit_of c) in
        change (digit_of c) with v
    end;
    cbv beta iota; rewrite IHd; do 2 f_equal; rewrite Nat.tail_mul_spec; lia.
Qed.

Lemma parse_digits_uint_of_string (k : string) (d : Decimal.uint) (acc : nat) :
  NilEmpty.uint_of_string k = Some d ->
  parse_digits k acc = Some (Nat.of_uint_acc d acc).
Proof.
  intros Hk. rewrite <- (NilEmpty.sus k d Hk). apply parse_digits_string_of_uint.
Qed.

Lemma digits_uint_of_string (k : string) :
  (forall c, In c (list_ascii_of_string k) -> is_digit c = true) ->
  exists d, NilEmpty.uint_of_string k = Some d.
Proof.
  induction k as [| c rest IH]; intros Hall; cbn.
  - eexists. reflexivity.
  - destruct IH as [d Hd].
    { intros c' Hin. apply Hall. right. exact Hin. }
    rewrite Hd.
    assert (Hc : is_digit c = true) by (apply Hall; left; reflexivity).
    destruct c as [[] [] [] [] [] [] [] []]; try discriminate Hc;
      eexists; reflexivity.
Qed.

Lemma parse_digits_ge (k : string) :
  forall acc m, parse_digits k acc = Some m -> acc <= m.
Proof.
  induction k as [| c rest IH]; intros acc m Hp; cbn in Hp.
  - injection Hp as <-. lia.
  - destruct (digit_of c) as [d |]; [| discriminate].
    apply IH in Hp. lia.
Qed.

Lemma parse_digits_nonzero (k : string) :
  forall acc m, parse_digits k acc = Some m ->
  (exists c, In c (list_ascii_of_string k) /\ c <> "0"%char) -> 0 < m.
Proof.
  induction k as [| c0 rest IH]; intros acc m Hp [c [Hin Hc]]; cbn in *.
  - contradiction.
  - destruct (digit_of c0) as [d |] eqn:Hd; [| discriminate].
    destruct Hin as [<- | Hin].
    + pose proof (digit_of_nonzero c0 d Hd Hc).
      apply parse_digits_ge in Hp. lia.
    + apply (IH _ _ Hp). exists c. split; assumption.
Qed.

(** A string that writes a positive integer is parsed, to the number the
    standard library reads in it. *)
Lemma parse_positive_complete (k : string) :
  is_positive_integer k ->
  exists m, parse_positive k = Some m /\ 0 < m /\ decimal_value k = Some m.
Proof.
  intros [Hne [Hdig Hnz]].
  destruct (digits_uint_of_string k Hdig) as [d Hd].
  pose proof (parse_digits_uint_of_string k d 0 Hd) as Hp.
  pose proof (parse_digits_nonzero k 0 _ Hp Hnz) as Hpos.
  exists (Nat.of_uint_acc d 0). repeat split.
  - unfold parse_positive. destruct k as [| c rest]; [contradiction |].
    rewrite Hp. destruct (Nat.of_uint_acc d 0); [lia | reflexivity].
  - exact Hpos.
  - unfold decimal_value. rewrite Hd. reflexivity.
Qed.

Lemma parse_positive_decimal (order : nat) :
  0 < order -> parse_positive (decimal order) = Some order.
Proof.
  intros Hpos. unfold decimal.
  pose proof (parse_digits_string_of_uint (Nat.to_uint order) 0) as Hp.
  change (Nat.of_uint_acc (Nat.to_uint order) 0)
    with (Nat.of_uint (Nat.to_uint order)) in Hp.
  rewrite DecimalNat.Unsigned.of_to in Hp.
  unfold parse_positive.
  destruct (NilEmpty.string_of_uint (Nat.to_uint order)) as [| c rest].
  - cbn in Hp. injection Hp as <-. lia.
  - rewrite Hp. destruct order; [lia | reflexivity].
Qed.

(** C8: the interpolation strings spline:5 and spline:3 give an engine
    whose stored spline order is 5 and 3; so does every positive order
    written in decimal, and every string after the colon that writes a
    positive integer is accepted with the number it writes; spline:<k>
    with [k] not a positive integer fails construction with
    ConfigurationError. *)
Theorem spline_order_parsing (n : nat) :
  (exists conv, FFTConvV1_init n "spline:5" = Return conv
                /\ _spline_order conv = 5)
  /\ (exists conv, FFTConvV1_init n "spline:3" = Return conv
                   /\ _spline_order conv = 3)
  /\ (forall order, 0 < order ->
        exists conv, FFTConvV1_init n ("spline:" ++ decimal order) = Return conv
                     /\ _spline_order conv = order)
  /\ (forall k, is_positive_integer k ->
        exists conv, FFTConvV1_init n ("spline:" ++ k) = Return conv
                     /\ 0 < _spline_order conv
                     /\ decimal_value k = Some (_spline_order conv))
  /\ (forall k, ~ is_positive_integer k ->
        FFTConvV1_init n ("spline:" ++ k)
        = Raise (Exn ConfigurationError "invalid interpolation specification")
        /\ raises (FFTConvV1_init n ("spline:" ++ k)) "ConfigurationError").
Proof.
  split; [| split; [| split; [| split]]].
  - eexists. split; reflexivity.
  - eexists. split; reflexivity.
  - intros order Hpos. unfold FFTConvV1_init. cbn.
    rewrite (parse_positive_decimal order Hpos). eexists. split; reflexivity.
  - intros k Hk. destruct (parse_positive_complete k Hk) as [m [Hp [Hpos Hval]]].
    unfold FFTConvV1_init. cbn. rewrite Hp. eexists.
    split; [reflexivity | split; [exact Hpos | exact Hval]].
  - intros k Hk.
    assert (Hrun : FFTConvV1_init n ("spline:" ++ k)
                   = Raise (Exn ConfigurationError
                                "invalid interpolation specification")).
    { unfold FFTConvV1_init. cbn.
      destruct (parse_positive k) as [m |] eqn:Hp; [| reflexivity].
      exfalso. exact (Hk (parse_positive_sound k m Hp)). }
    split; [exact Hrun |].
    rewrite Hrun. eexists. split; reflexivity.
Qed.

Lemma spline_order_parsing_witness :
  FFTConvV1_init 100 "spline:-1"
  = Raise (Exn ConfigurationError "invalid interpolation specification")
  /\ (exists conv, FFTConvV1_init 100 "spline:12" = Return conv
                   /\ _spline_order conv = 12).
Proof.
  split.
  - apply (proj1 (proj2 (proj2 (proj2 (proj2 (spline_order_parsing 100)))) "-1"%string
                    ltac:(intros [_ [Hd _]];
                          specialize (Hd "-"%char (or_introl eq_refl));
                          discriminate Hd))).
  - apply (proj1 (proj2 (proj2 (spline_order_parsing 100))) 12). lia.
Defined.

End ConvolutionProperties.

(** * Further properties of the modelled code *)

(** ** Parameters *)

Section ParameterFurther.
Import parameter.

Variable cast_number : float -> float.
Variable to_real : float -> float.
Variable collections : Type.
Variable add_to_collection : string -> BaseParameter -> collections -> collections.

Local Notation "'new_Parameter'" := (Parameter_init cast_number add_to_collection).
Local Notation "'convert'" :=
  (convert_to_parameter cast_number to_real add_to_collection).
Local Notation "'new_ComplexParameter'" :=
  (ComplexParameter_init cast_number add_to_collection).

(** The variable as it is when it is added to the collection. *)
Local Notation "'fresh'" :=
  (fun nm iv => mkBaseParameter nm (numeric_value iv) true (Some true)).

(** X1: a boolean stored through the [floating] setter is read back by
    the getter whenever the variable is trainable or the flag is false;
    name, value and trainability are not touched. *)
Theorem floating_set_get_round_trip (p : BaseParameter) (b : bool) :
  trainable p = true \/ b = false ->
  fst (floating_setter (PyBool b) p) = Return tt
  /\ floating (snd (floating_setter (PyBool b) p)) = Return b
  /\ name (snd (floating_setter (PyBool b) p)) = name p
  /\ trainable (snd (floating_setter (PyBool b) p)) = trainable p.
Proof.
  intros H. unfold floating. cbn.
  destruct H as [Ht | ->]; [rewrite Ht; destruct b |]; repeat split.
Qed.

(** X2: constructing a [Parameter] succeeds exactly when the [floating]
    argument is a boolean.  Any other value fails with TypeError, and it
    does so after the variable has been created and added to the
    collection zfit_independent, where it stays. *)
Theorem Parameter_init_requires_bool
    (nm : string) (iv : numeric) (lower upper : option numeric)
    (step : option float) (fl : pyval) (g : collections) :
  (isinstance_bool fl = true
   <-> returns (fst (new_Parameter nm iv lower upper step fl g)))
  /\ (isinstance_bool fl = false ->
      new_Parameter nm iv lower upper step fl g
      = (Raise (Exn TypeError "floating has to be a boolean."),
         add_to_collection "zfit_independent" (fresh nm iv) g)).
Proof.
  split; [split |].
  - intros H. destruct fl; try discriminate H. eexists. reflexivity.
  - intros [p Hp]. destruct fl; try discriminate Hp. reflexivity.
  - intros H. destruct fl; try discriminate H; reflexivity.
Qed.

(** X3: a constructed [Parameter] has been added to the collection
    zfit_independent and is trainable, so reading [floating] returns the
    flag it was given and never raises; it holds the cast of its initial
    value, the step size as given, and as limits the casts of the limits
    given, or of the infinity on that side when none is given. *)
Theorem Parameter_init_stores_arguments
    (nm : string) (iv : numeric) (lower upper : option numeric)
    (step : option float) (b : bool) (g : collections) :
  exists p,
    new_Parameter nm iv lower upper step (PyBool b) g
    = (Return p, add_to_collection "zfit_independent" (fresh nm iv) g)
    /\ floating (base p) = Return b
    /\ trainable (base p) = true
    /\ init_value p = tf_cast cast_number iv
    /\ _step_size p = step
    /\ lower_limit p
       = tf_cast cast_number
                 match lower with
                 | Some l => l
                 | None => PyNumber (- infinity)%float
                 end
    /\ upper_limit p
       = tf_cast cast_number
                 match upper with
                 | Some u => u
                 | None => PyNumber infinity
                 end.
Proof.
  eexists. split; [reflexivity |]. cbn. unfold floating. cbn.
  rewrite andb_false_r. repeat split.
Qed.

(** X5: reading the step size never raises: the ValueError of the getter
    cannot be reached, whatever the limits and the stored step (NaN and
    infinite ones included); the value read is the cast of the stored
    step, or of 0.001 when none is stored. *)
Theorem step_size_never_raises (p : Param) :
  step_size to_real p
  = Return (to_real match _step_size p with
                    | Some s => s
                    | None => 0.001%float
                    end)
  /\ ~ raises (step_size to_real p) "ValueError".
Proof.
  assert (H : step_size to_real p
              = Return (to_real match _step_size p with
                                | Some s => s
                                | None => 0.001%float
                                end))
    by (unfold step_size; destruct (_step_size p); reflexivity).
  split; [exact H |]. rewrite H. intros [e [He _]]. discriminate He.
Qed.

(** X6: a tensor is converted into a parameter that holds it, has been
    added to the collection zfit_independent while its flag was still
    true, is not floating afterwards (reading the flag returns false),
    and has the casts of the two infinities as limits and the default
    step size; a number is converted as the tensor that [ztf.to_real]
    makes of it. *)
Theorem convert_to_parameter_fixed (t x : float) (g : collections) :
  (exists p,
      convert (ATensor t) g
      = (Return p,
         add_to_collection "zfit_independent"
                           (fresh "FIXED_autoparam" (FloatTensor t)) g)
      /\ init_value p = t
      /\ floating (base p) = Return false
      /\ lower_limit p = cast_number (- infinity)%float
      /\ upper_limit p = cast_number infinity
      /\ step_size to_real p = Return (to_real 0.001%float))
  /\ convert (ANumber x) g = convert (ATensor (to_real x)) g.
Proof.
  split; [| reflexivity].
  eexists. repeat split.
Qed.

(** X9: constructing a [ComposedParameter] never returns an object: once
    the gradients are there, [filter] is called with the keyword argument
    [iterable] and raises TypeError; only an error of the gradient
    computation can come first. *)
Theorem ComposedParameter_init_never_returns
    (gradients : float -> result (list (option Param)))
    (nm : string) (tensor : float) :
  ~ returns (ComposedParameter_init gradients nm tensor)
  /\ (returns (gradients tensor) ->
      raises (ComposedParameter_init gradients nm tensor) "TypeError").
Proof.
  unfold ComposedParameter_init. split.
  - intros [c Hc]. destruct (gradients tensor); discriminate Hc.
  - intros [gs ->]. eexists. split; reflexivity.
Qed.

(** X10: a [ComplexParameter] is made of two parameters, stored under
    real and imag in that order, named <name>_real and <name>_imag,
    holding the two parts of the value, both with the given floating
    flag; the composed parameter's own flag is true whatever was given.
    Both parts have been added to the collection zfit_independent, the
    real part first.  A flag that is not a boolean fails with TypeError,
    when the real part has been added already. *)
Theorem ComplexParameter_init_parts
    (nm : string) (re im : float) (fl : pyval) (g : collections) :
  (forall b, fl = PyBool b ->
     exists c real_part imag_part,
       fst (new_ComplexParameter nm (re, im) fl g) = Return c
       /\ _parameters c = Some [("real", real_part); ("imag", imag_part)]
       /\ name (base real_part) = (nm ++ "_real")%string
       /\ name (base imag_part) = (nm ++ "_imag")%string
       /\ init_value real_part = re
       /\ init_value imag_part = im
       /\ floating (base real_part) = Return b
       /\ floating (base imag_part) = Return b
       /\ composed_floating c = Some true
       /\ composed_name c = nm
       /\ snd (new_ComplexParameter nm (re, im) fl g)
          = add_to_collection "zfit_independent"
              (fresh (nm ++ "_imag")%string (FloatTensor im))
              (add_to_collection "zfit_independent"
                 (fresh (nm ++ "_real")%string (FloatTensor re)) g))
  /\ (isinstance_bool fl = false ->
      new_ComplexParameter nm (re, im) fl g
      = (Raise (Exn TypeError "floating has to be a boolean."),
         add_to_collection "zfit_independent"
           (fresh (nm ++ "_real")%string (FloatTensor re)) g)).
Proof.
  split.
  - intros b ->. do 3 eexists.
    split; [reflexivity |]. split; [reflexivity |].
    cbn. unfold floating. cbn. destruct b; repeat split.
  - intros H. destruct fl; try discriminate H; reflexivity.
Qed.

End ParameterFurther.

Lemma floating_set_get_round_trip_witness :
  parameter.floating
    (snd (parameter.floating_setter (parameter.PyBool false) frozen_floating))
  = Return false.
Proof.
  apply (floating_set_get_round_trip frozen_floating false (or_intror eq_refl)).
Defined.

Lemma Parameter_init_requires_bool_witness :
  parameter.Parameter_init keep_number add_name "a"
    (parameter.PyNumber 1%float) None None None (parameter.PyStr "yes") []
  = (Raise (Exn TypeError "floating has to be a boolean."), ["a"]).
Proof.
  apply (proj2 (Parameter_init_requires_bool keep_number (list string) add_name
                  "a" (parameter.PyNumber 1%float) None None None
                  (parameter.PyStr "yes") []) eq_refl).
Defined.

Lemma ComposedParameter_init_never_returns_witness :
  raises (parameter.ComposedParameter_init
            (fun _ => Return [Some open_param; None]) "sum" 1%float)
         "TypeError".
Proof.
  apply (proj2 (ComposedParameter_init_never_returns
                  (fun _ => Return [Some open_param; None]) "sum" 1%float)).
  eexists. reflexivity.
Defined.

Lemma ComplexParameter_init_parts_witness :
  exists c,
    fst (parameter.ComplexParameter_init keep_number add_name "amp"
           (1%float, 2%float) (parameter.PyBool false) [])
    = Return c
    /\ parameter.composed_floating c = Some true.
Proof.
  destruct (proj1 (ComplexParameter_init_parts keep_number (list string) add_name
                     "amp" 1%float 2%float (parameter.PyBool false) [])
              false eq_refl)
    as [c [rp [ip [Hc [_ [_ [_ [_ [_ [_ [_ [Hf _]]]]]]]]]]]].
  exists c. split; [exact Hc | exact Hf].
Defined.

(** ** Wrapped distributions *)

Section WrapFurther.
Import parameter dist_tfp.

Variable cast_number : float -> float.
Variable to_real : float -> float.
Variable collections : Type.
Variable add_to_collection : string -> BaseParameter -> collections -> collections.

Local Notation "'convert'" :=
  (convert_to_parameter cast_number to_real add_to_collection).
Local Notation "'convert_all'" :=
  (convert_params cast_number to_real add_to_collection).

(** The parameter a conversion returns does not depend on the
    collections. *)
Lemma convert_to_parameter_any_collections (p : param_input) (g g' : collections) :
  fst (convert p g) = fst (convert p g').
Proof.
  destruct p; reflexivity.
Qed.

Lemma convert_params_inv (k : string) (p : param_input)
    (rest : list (string * param_input)) (qs : list (string * Param))
    (g g' : collections) :
  convert_all ((k, p) :: rest) g = (Return qs, g') ->
  exists q qs', fst (convert p g) = Return q
                /\ convert_all rest (snd (convert p g)) = (Return qs', g')
                /\ qs = (k, q) :: qs'.
Proof.
  cbn. destruct (convert p g) as [[q | e] g1]; [| discriminate].
  cbn [fst snd].
  destruct (convert_all rest g1) as [[qs' | e] g2]; [| discriminate].
  cbn. intros H. injection H as <- <-. exists q, qs'.
  split; [reflexivity | split; reflexivity].
Qed.

(** X11: converting the parameters of a wrapped distribution keeps the
    keys and their order and converts each value on its own (a parameter
    stays, a number becomes a fixed parameter); when one of the values is
    a Python complex the conversion raises ValueError. *)
Theorem convert_params_keeps_keys (params : list (string * param_input)) :
  (forall g qs g', convert_all params g = (Return qs, g') ->
     map fst qs = map fst params
     /\ Forall2 (fun p q => forall g1, fst (convert (snd p) g1) = Return (snd q))
                params qs)
  /\ ((exists k re im, In (k, AComplex re im) params) ->
      forall g, raises (fst (convert_all params g)) "ValueError").
Proof.
  induction params as [| [k p] rest [IHkeys IHfail]].
  - split.
    + intros g qs g' H. injection H as <- _. split; constructor.
    + intros [k [re [im []]]].
  - split.
    + intros g qs g' H.
      destruct (convert_params_inv _ _ _ _ _ _ H) as [q [qs' [Hq [Hrest ->]]]].
      destruct (IHkeys _ _ _ Hrest) as [Hk Hv].
      split; [cbn; rewrite Hk; reflexivity |].
      constructor; [| exact Hv].
      intros g1. cbn. rewrite (convert_to_parameter_any_collections p g1 g).
      exact Hq.
    + intros [k' [re [im [Heq | Hin]]]] g.
      * injection Heq as -> ->. eexists. split; reflexivity.
      * cbn. destruct (convert p g) as [[q | e] g1] eqn:Hq.
        -- destruct (IHfail (ex_intro _ k' (ex_intro _ re (ex_intro _ im Hin))) g1)
             as [e [He Hn]].
           destruct (convert_all rest g1) as [rs g2]. cbn in He. subst rs.
           exists e. split; [reflexivity | exact Hn].
        -- destruct p; try discriminate Hq. cbn in Hq. injection Hq as <- _.
           eexists. split; reflexivity.
Qed.

(** X12: analytic sampling returns exactly when the limits have one axis
    and the draw of the random source has one column; what it returns is
    the draw with the quantile applied to each element, with the rows of
    the draw, however many they are. *)
Theorem analytic_sample_returns_iff
    (uniform : nat * nat -> list float -> list float -> Tensor)
    (n : nat) (dist : Distribution) (limits : Space) :
  let draw := uniform (n, 1) (map (cdf dist) (rect_lower limits))
                      (map (cdf dist) (rect_upper limits)) in
  (returns (tfd_analytic_sample uniform n dist limits)
   <-> n_obs limits = 1 /\ snd (t_shape draw) = 1)
  /\ (forall t, tfd_analytic_sample uniform n dist limits = Return t ->
        t = map_tensor (quantile dist) draw
        /\ t_shape t = t_shape draw).
Proof.
  intros draw.
  assert (Hrun : tfd_analytic_sample uniform n dist limits
                 = if Nat.eqb 1 (snd (t_shape draw))
                   then if Nat.eqb (n_obs limits) (snd (t_shape draw))
                        then Return (map_tensor (quantile dist) draw)
                        else Raise (Exn ValueError
                                        "Tensor's shape is not compatible with supplied shape.")
                   else Raise (Exn ValueError
                                   "Tensor's shape is not compatible with supplied shape.")).
  { unfold tfd_analytic_sample, rect_limits. fold draw.
    unfold set_shape. cbn [fst snd dim_compatible andb].
    destruct (Nat.eqb 1 (snd (t_shape draw))); [| reflexivity].
    cbn. destruct (Nat.eqb (n_obs limits) (snd (t_shape draw))); reflexivity. }
  rewrite Hrun. split; [split |].
  - intros [t Ht].
    destruct (Nat.eqb 1 (snd (t_shape draw))) eqn:H1; [| discriminate Ht].
    destruct (Nat.eqb (n_obs limits) (snd (t_shape draw))) eqn:H2;
      [| discriminate Ht].
    apply Nat.eqb_eq in H1, H2. split; congruence.
  - intros [Hobs Hcol]. rewrite Hcol, Hobs. cbn. eexists. reflexivity.
  - intros t Ht.
    destruct (Nat.eqb 1 (snd (t_shape draw))); [| discriminate Ht].
    destruct (Nat.eqb (n_obs limits) (snd (t_shape draw))); [| discriminate Ht].
    injection Ht as <-. split; reflexivity.
Qed.

Lemma sub_each_length (xs ys : list float) :
  length (sub_each xs ys) = Nat.min (length xs) (length ys).
Proof.
  unfold sub_each. rewrite length_map, length_combine. reflexivity.
Qed.

(** X13: over limits with one lower and one upper bound per axis,
    analytic integration has two outcomes only: the failed finiteness
    assertion, or one value per axis.  A NaN bound fails like an infinite
    one. *)
Theorem analytic_integrate_outcomes
    {P K : Type} (self : WrapDistribution P K) (limits : Space) :
  length (rect_lower limits) = n_obs limits ->
  length (rect_upper limits) = n_obs limits ->
  (raises (_analytic_integrate self limits) "InvalidArgumentError"
   /\ forallb PrimFloat.is_finite (rect_lower limits ++ rect_upper limits) = false)
  \/ (exists values, _analytic_integrate self limits = Return values
                     /\ length values = n_obs limits
                     /\ forallb PrimFloat.is_finite
                                (rect_lower limits ++ rect_upper limits) = true).
Proof.
  intros Hl Hu. unfold _analytic_integrate, assert_all_finite, rect_limits.
  destruct (forallb PrimFloat.is_finite (rect_lower limits ++ rect_upper limits)).
  - right. eexists. split; [reflexivity |]. split; [| reflexivity].
    rewrite sub_each_length, !length_map, Hl, Hu. apply Nat.min_id.
  - left. split; [| reflexivity]. eexists. split; reflexivity.
Qed.

End WrapFurther.

Lemma convert_params_keeps_keys_witness :
  raises (fst (dist_tfp.convert_params keep_number keep_number add_name
                 [("low", parameter.ANumber (-1)%float);
                  ("high", parameter.AComplex 0%float 1%float)] []))
         "ValueError".
Proof.
  apply (proj2 (convert_params_keeps_keys keep_number keep_number (list string)
                  add_name
                  [("low", parameter.ANumber (-1)%float);
                   ("high", parameter.AComplex 0%float 1%float)])).
  exists "high", 0%float, 1%float. right. left. reflexivity.
Defined.

Lemma analytic_sample_returns_iff_witness :
  returns (dist_tfp.tfd_analytic_sample lowest_draw 4
             (dist_tfp.distribution flat) obs1).
Proof.
  apply (proj2 (proj1 (analytic_sample_returns_iff lowest_draw 4
                         (dist_tfp.distribution flat) obs1))).
  split; reflexivity.
Defined.

Lemma analytic_integrate_outcomes_witness :
  raises (dist_tfp._analytic_integrate flat
            (dist_tfp.mkSpace ["obs1"] [nan] [1%float]))
         "InvalidArgumentError".
Proof.
  destruct (analytic_integrate_outcomes flat
              (dist_tfp.mkSpace ["obs1"] [nan] [1%float])
              eq_refl eq_refl) as [[H _] | [values [_ [_ H]]]].
  - exact H.
  - discriminate H.
Defined.

(** ** Kernel density estimate *)

Section KDEFurther.
Import dist_tfp.

Variable bandwidth_silverman : list float -> list float.
Variable bandwidth_scott : list float -> list float.
Variable bandwidth_adaptiveV1 :
  list float -> list float -> (list float -> list float) -> list float.
Variable pdf : GaussianKDE1DimExactV1 -> list float -> list float.
Variable reduce_sum : list float -> float.
Variable to_real : float -> float.
Variable distribution_name : string.

Local Notation "'init'" :=
  (GaussianKDE1DimExactV1_init bandwidth_silverman bandwidth_scott
                               bandwidth_adaptiveV1 pdf reduce_sum to_real
                               distribution_name).

Lemma weights_given_twice_dec (data : data_input) (weights : option (list float)) :
  {weights_given_twice data weights} + {~ weights_given_twice data weights}.
Proof.
  destruct data as [v [dw |] | v]; destruct weights as [w |];
    try (right; intros [v' [d' [w' [Hd Hw]]]]; discriminate).
  left. exists v, dw, w. split; reflexivity.
Qed.

(** X14: weights handed over with the dataset and weights handed over as
    an argument give the same estimator, for every bandwidth. *)
Theorem kde_weights_in_data_or_argument
    (fuel : nat) (obs : Space) (values w : list float)
    (bw : option bandwidth_input) (name : string) :
  init fuel obs (ZfitData values (Some w)) bw None name
  = init fuel obs (TensorData values) bw (Some w) name
  /\ init fuel obs (ZfitData values None) bw (Some w) name
     = init fuel obs (TensorData values) bw (Some w) name.
Proof.
  destruct fuel; split; reflexivity.
Qed.

(** X16: without the adaptive method one call of the constructor is
    enough and no other instance is built: no bandwidth means silverman,
    silverman and scott store the rule's result for the data, numbers
    are stored as given, and the bandwidth parameter is the bandwidth. *)
Theorem kde_single_call_without_adaptive
    (fuel : nat) (obs : Space) (data : data_input)
    (weights : option (list float)) (name : string) :
  ~ weights_given_twice data weights ->
  (exists self,
      init (S fuel) obs data None weights name = Some (Return (Built self []))
      /\ init (S fuel) obs data (Some (BwStr "silverman")) weights name
         = Some (Return (Built self []))
      /\ bandwidth self = bandwidth_silverman (values_of data)
      /\ kde_params_bandwidth self = bandwidth self)
  /\ (exists self,
        init (S fuel) obs data (Some (BwStr "scott")) weights name
        = Some (Return (Built self []))
        /\ bandwidth self = bandwidth_scott (values_of data)
        /\ kde_params_bandwidth self = bandwidth self)
  /\ (forall b, exists self,
        init (S fuel) obs data (Some (BwNum b)) weights name
        = Some (Return (Built self []))
        /\ bandwidth self = b
        /\ kde_params_bandwidth self = b).
Proof.
  intros Hnot. destruct (unpack_data_once data weights Hnot) as [w Hw].
  split; [| split].
  - eexists. cbn. rewrite Hw. cbn. repeat split.
  - eexists. cbn. rewrite Hw. cbn. repeat split.
  - intros b. eexists. cbn. rewrite Hw. cbn. repeat split.
Qed.

(** X17: with the adaptive method the bandwidth parameter of the
    estimator is the placeholder -999 and not the bandwidth, and the
    provisional estimator shares observables, data, weights and mixture
    probabilities with the final one. *)
Theorem kde_adaptive_shares_with_inner
    (fuel : nat) (obs : Space) (data : data_input)
    (weights : option (list float)) (name : string) :
  ~ weights_given_twice data weights ->
  exists self inner,
    init (S (S fuel)) obs data (Some (BwStr "adaptiveV1")) weights name
    = Some (Return (Built self [Built inner []]))
    /\ kde_params_bandwidth self = [(-999)%float]
    /\ kde_obs inner = kde_obs self
    /\ kde_data inner = kde_data self
    /\ _data_weights inner = _data_weights self
    /\ kde_probs inner = kde_probs self.
Proof.
  intros Hnot. destruct (unpack_data_once data weights Hnot) as [w Hw].
  do 2 eexists. cbn. rewrite Hw. cbn. repeat split.
Qed.

(** X18: for a bandwidth that is a string, a float tensor or a Python
    complex, and with two constructor calls available, every construction
    ends, in one of three ways: OverdefinedError when the weights are
    given twice; otherwise ValueError when the bandwidth is a string that
    names no method or a complex; otherwise an estimator. *)
Theorem kde_outcomes
    (fuel : nat) (obs : Space) (data : data_input)
    (bw : option bandwidth_input) (weights : option (list float))
    (name : string) :
  exists r,
    init (S (S fuel)) obs data bw weights name = Some r
    /\ ((weights_given_twice data weights /\ raises r "OverdefinedError")
        \/ (~ weights_given_twice data weights
            /\ (unknown_method bw \/ complex_bandwidth bw)
            /\ raises r "ValueError")
        \/ (~ weights_given_twice data weights
            /\ ~ unknown_method bw /\ ~ complex_bandwidth bw
            /\ returns r)).
Proof.
  destruct (weights_given_twice_dec data weights) as [Htwice | Hnot].
  - destruct Htwice as [v [dw [w [-> ->]]]].
    eexists. split; [reflexivity |]. left. split.
    + exists v, dw, w. split; reflexivity.
    + eexists. split; reflexivity.
  - destruct (unpack_data_once data weights Hnot) as [w Hw].
    assert (Hstr : forall s, ~ complex_bandwidth (Some (BwStr s)))
      by (intros s [re [im H]]; discriminate H).
    destruct bw as [[s | b | re im] |].
    + destruct (String.eqb s "silverman") eqn:E1.
      { eexists. split; [cbn; rewrite Hw, E1; reflexivity |].
        right. right. split; [exact Hnot | split; [| split; [apply Hstr |]]].
        - intros [s' [Heq [H1 _]]]. injection Heq as <-.
          apply String.eqb_eq in E1. contradiction.
        - eexists. reflexivity. }
      destruct (String.eqb s "scott") eqn:E2.
      { eexists. split; [cbn; rewrite Hw, E1, E2; reflexivity |].
        right. right. split; [exact Hnot | split; [| split; [apply Hstr |]]].
        - intros [s' [Heq [_ [H2 _]]]]. injection Heq as <-.
          apply String.eqb_eq in E2. contradiction.
        - eexists. reflexivity. }
      destruct (String.eqb s "adaptiveV1") eqn:E3.
      { eexists. split; [cbn; rewrite Hw, E1, E2, E3; cbn; reflexivity |].
        right. right. split; [exact Hnot | split; [| split; [apply Hstr |]]].
        - intros [s' [Heq [_ [_ H3]]]]. injection Heq as <-.
          apply String.eqb_eq in E3. contradiction.
        - eexists. reflexivity. }
      eexists. split; [cbn; rewrite Hw, E1, E2, E3; reflexivity |].
      right. left. split; [exact Hnot | split].
      * left. exists s. apply String.eqb_neq in E1, E2, E3.
        repeat split; assumption.
      * eexists. split; reflexivity.
    + eexists. split; [cbn; rewrite Hw; reflexivity |].
      right. right. split; [exact Hnot | split; [| split]].
      * intros [s' [Heq _]]. discriminate Heq.
      * intros [re [im Heq]]. discriminate Heq.
      * eexists. reflexivity.
    + eexists. split; [cbn; rewrite Hw; reflexivity |].
      right. left. split; [exact Hnot | split].
      * right. exists re, im. reflexivity.
      * eexists. split; reflexivity.
    + eexists. split; [cbn; rewrite Hw; reflexivity |].
      right. right. split; [exact Hnot | split; [| split]].
      * intros [s' [Heq _]]. discriminate Heq.
      * intros [re [im Heq]]. discriminate Heq.
      * eexists. reflexivity.
Qed.

End KDEFurther.

Lemma kde_single_call_without_adaptive_witness :
  exists self,
    dist_tfp.GaussianKDE1DimExactV1_init
      unit_bandwidth unit_bandwidth same_bandwidth zero_pdf sum_left
      keep_number "MixtureSameFamily"
      1 obs1 (dist_tfp.TensorData sample3) (Some (dist_tfp.BwNum [2%float]))
      None "kde"
    = Some (Return (dist_tfp.Built self []))
    /\ dist_tfp.bandwidth self = [2%float].
Proof.
  destruct (proj2 (proj2 (kde_single_call_without_adaptive
                            unit_bandwidth unit_bandwidth same_bandwidth zero_pdf
                            sum_left keep_number "MixtureSameFamily"
                            0 obs1 (dist_tfp.TensorData sample3) None "kde"
                            ltac:(intros [v [d [w [Hd _]]]]; discriminate Hd)))
             [2%float])
    as [self [Hrun [Hbw _]]].
  exists self. split; [exact Hrun | exact Hbw].
Defined.

Lemma kde_adaptive_shares_with_inner_witness :
  exists self inner,
    dist_tfp.GaussianKDE1DimExactV1_init
      unit_bandwidth unit_bandwidth same_bandwidth zero_pdf sum_left
      keep_number "MixtureSameFamily"
      2 obs1 (dist_tfp.TensorData sample3) (Some (dist_tfp.BwStr "adaptiveV1"))
      (Some ones3) "kde"
    = Some (Return (dist_tfp.Built self [dist_tfp.Built inner []]))
    /\ dist_tfp.kde_params_bandwidth self = [(-999)%float].
Proof.
  destruct (kde_adaptive_shares_with_inner
              unit_bandwidth unit_bandwidth same_bandwidth zero_pdf
              sum_left keep_number "MixtureSameFamily"
              0 obs1 (dist_tfp.TensorData sample3) (Some ones3) "kde"
              ltac:(intros [v [d [w [Hd _]]]]; discriminate Hd))
    as [self [inner [Hrun [Hp _]]]].
  exists self, inner. split; [exact Hrun | exact Hp].
Defined.
